(** * convert_image_to_dicom.py: image to DICOM Secondary Capture

    A shallow embedding of [create_dicom_from_image] and [main] of
    src/convert_image_to_dicom.py, and the properties of the produced
    dataset.

    The script is glue around three libraries.  What the script itself
    does is embedded line by line; what the libraries do is either
    written out where it is plain data handling (a PIL image is a grid of
    pixels, a numpy array a shape and a C-order buffer, a pydicom
    [Dataset] a dictionary from attribute keyword to value) or taken as a
    field of the class [Env] where it is a codec or the machine (the image
    decoder, Pillow's per-pixel mode conversion, the UID generator, the
    wall clock, the DICOM serialiser, [os.path]).

    The file system is a map from the path a file is named by to its
    content: two spellings of one file are two keys, so what a write does
    to a file under another name is outside the model. *)

From Stdlib Require Import ZArith Lia List Ascii String.
From Stdlib Require Import Strings.Byte.
From stdpp Require Import gmap strings list fin_maps.

Open Scope string_scope.

(* ===================================================================== *)
(** ** Python values and exceptions *)
(* ===================================================================== *)

(** The exceptions a call can end with.  The script defines no exception
    class of its own and catches nothing, so a library's exception leaves
    [create_dicom_from_image] unchanged.  They are named by what they
    mean for the conversion:
    - [DecodeError]: raised by [Image.open] ([FileNotFoundError],
      [PIL.UnidentifiedImageError], [OSError]); a file whose image has
      no width or no height is among those it refuses;
    - [WriteError]: raised by [os.makedirs] or [Dataset.save_as]
      ([OSError] and its subclasses);
    - [ValueError]: a tuple unpacking with the wrong number of values;
    - [AttributeError]: reading a dataset attribute that is not set;
    - [InvalidImageError]: the error a check of the image's dimensions
      would raise. *)
Inductive exn : Set :=
  | DecodeError
  | InvalidImageError
  | WriteError
  | ValueError
  | AttributeError.

Inductive result (A : Type) : Type :=
  | Ok (a : A)
  | Raise (e : exn).
Arguments Ok {A} a.
Arguments Raise {A} e.

(** The value of a data element.  [VMulti] is pydicom's [MultiValue] of
    strings, [VNone] is Python's [None]. *)
Inductive Value : Type :=
  | VStr (s : string)
  | VInt (n : Z)
  | VBytes (b : list byte)
  | VNone
  | VMulti (l : list string).

(** Python's truth value of an optional string: [None] and [""] are
    falsy. *)
Definition truthy (x : option string) : bool :=
  match x with
  | Some s => negb (String.eqb s "")
  | None => false
  end.

(* ===================================================================== *)
(** ** datetime *)
(* ===================================================================== *)

(** The fields of a [datetime] the script formats. *)
Record datetime : Set := {
  year : N;
  month : N;
  day : N;
  hour : N;
  minute : N;
  second : N
}.

Module strftime.

Definition digit (n : N) : ascii := ascii_of_N (48 + n mod 10).

(** [%m], [%d], [%H], [%M], [%S]: a number below 100 in two decimal
    places, padded with a zero. *)
Definition two_digits (n : N) : string :=
  String (digit (n / 10)) (String (digit n) "").

Fixpoint digits_of (fuel : nat) (n : N) (acc : string) : string :=
  match fuel with
  | O => acc
  | S f =>
      let acc' := String (digit n) acc in
      if (n / 10 =? 0)%N then acc' else digits_of f (n / 10) acc'
  end.

(** [%Y]: the year as a decimal number.  The C library's [strftime]
    that CPython calls does not pad a year below 1000 on every platform;
    the plain decimal is what all of them print from 1000 on.  A number
    has no more decimal places than binary ones, which bounds the
    recursion. *)
Definition decimal (n : N) : string := digits_of (S (N.size_nat n)) n "".

Definition directive (c : ascii) (d : datetime) : string :=
  if Ascii.eqb c "Y" then decimal (year d)
  else if Ascii.eqb c "m" then two_digits (month d)
  else if Ascii.eqb c "d" then two_digits (day d)
  else if Ascii.eqb c "H" then two_digits (hour d)
  else if Ascii.eqb c "M" then two_digits (minute d)
  else if Ascii.eqb c "S" then two_digits (second d)
  else String "%" (String c "").

(** [d.strftime(fmt)] for the directives the script uses. *)
Fixpoint format (fmt : string) (d : datetime) : string :=
  match fmt with
  | EmptyString => ""
  | String c rest =>
      if Ascii.eqb c "%" then
        match rest with
        | EmptyString => "%"
        | String k rest' => directive k d +:+ format rest' d
        end
      else String c (format rest d)
  end.

(** Reading a decimal number back. *)
Definition digit_value (c : ascii) : option N :=
  let n := N_of_ascii c in
  if ((48 <=? n) && (n <=? 57))%N then Some (n - 48)%N else None.

Fixpoint parse_from (acc : N) (s : string) : option N :=
  match s with
  | EmptyString => Some acc
  | String c rest =>
      match digit_value c with
      | Some v => parse_from (10 * acc + v)%N rest
      | None => None
      end
  end.

Definition parse_decimal (s : string) : option N :=
  match s with
  | EmptyString => None
  | _ => parse_from 0%N s
  end.

(** [s] is the number [n] written in exactly [width] decimal digits. *)
Definition reads_as (width : nat) (n : N) (s : string) : Prop :=
  String.length s = width /\ parse_decimal s = Some n.

Definition reads_asb (width : nat) (n : N) (s : string) : bool :=
  (String.length s =? width)%nat &&
  match parse_decimal s with
  | Some m => (m =? n)%N
  | None => false
  end.

End strftime.

(** What [datetime.datetime.now()] returns on a machine whose clock shows
    a four-digit year. *)
Definition valid_datetime (d : datetime) : Prop :=
  (1000 <= year d <= 9999 /\ 1 <= month d <= 12 /\ 1 <= day d <= 31 /\
   hour d <= 23 /\ minute d <= 59 /\ second d <= 59)%N.

(* ===================================================================== *)
(** ** PIL images and numpy arrays *)
(* ===================================================================== *)

Module PIL.

(** The two modes the script converts to. *)
Inductive Mode : Set := L | RGB.

(** A decoded image file: [size] is [(width, height)] as in PIL, and
    [rows] is the pixel grid, top row first.  [P] is the pixel type of
    the file's own mode. *)
Record Source (P : Type) : Type := {
  src_size : nat * nat;
  src_rows : list (list P)
}.
Arguments src_size {P} s.
Arguments src_rows {P} s.

(** An image in mode [L] or [RGB]: every pixel is the list of its
    8-bit bands. *)
Record Image : Type := {
  mode : Mode;
  size : nat * nat;
  im : list (list (list byte))
}.

(** The grid has [height] rows of [width] pixels. *)
Definition well_formed {P} (s : Source P) : Prop :=
  length (src_rows s) = snd (src_size s) /\
  Forall (fun row => length row = fst (src_size s)) (src_rows s).

End PIL.

Module np.

(** A C-contiguous [uint8] array: its shape and its buffer. *)
Record ndarray : Type := {
  shape : list nat;
  buffer : list byte
}.

(** [arr.tobytes()]: the buffer in C (row-major) order. *)
Definition tobytes (arr : ndarray) : list byte := buffer arr.

(** [np.array(img)]: shape [(height, width)] for mode [L] and
    [(height, width, 3)] for mode [RGB]; the buffer is the image's rows
    one after the other, each pixel's bands together. *)
Definition array (img : PIL.Image) : ndarray :=
  let '(w, h) := PIL.size img in
  {| shape := match PIL.mode img with
              | PIL.L => [h; w]
              | PIL.RGB => [h; w; 3]
              end;
     buffer := concat (map (@concat byte) (PIL.im img)) |}.

End np.

(* ===================================================================== *)
(** ** pydicom datasets *)
(* ===================================================================== *)

Module pydicom.

(** [pydicom.uid] constants. *)
Definition PYDICOM_ROOT_UID : string := "1.2.826.0.1.3680043.8.498.".
Definition ImplicitVRLittleEndian : string := "1.2.840.10008.1.2".
Definition ExplicitVRLittleEndian : string := "1.2.840.10008.1.2.1".
Definition ExplicitVRBigEndian : string := "1.2.840.10008.1.2.2".
Definition SecondaryCaptureImageStorage : string := "1.2.840.10008.5.1.4.1.1.7".

(** [UID.is_little_endian] and [UID.is_implicit_VR] of an uncompressed
    transfer syntax: the encoding a reader takes from the file meta's
    [TransferSyntaxUID]. *)
Definition uid_is_little_endian (uid : string) : option bool :=
  if String.eqb uid ImplicitVRLittleEndian then Some true
  else if String.eqb uid ExplicitVRLittleEndian then Some true
  else if String.eqb uid ExplicitVRBigEndian then Some false
  else None.

Definition uid_is_implicit_VR (uid : string) : option bool :=
  if String.eqb uid ImplicitVRLittleEndian then Some true
  else if String.eqb uid ExplicitVRLittleEndian then Some false
  else if String.eqb uid ExplicitVRBigEndian then Some false
  else None.

(** A [Dataset] is a dictionary of data elements, here keyed by the
    attribute keyword. *)
Abbreviation Dataset := (gmap string Value).

(** The value separator of DICOM, code 92. *)
Definition backslash : ascii := "092"%char.

Fixpoint has_backslash (s : string) : bool :=
  match s with
  | EmptyString => false
  | String c rest => Ascii.eqb c backslash || has_backslash rest
  end.

(** Python's [s.split(sep)] for the one-character separator: the parts
    between the separators, empty parts included. *)
Fixpoint split_backslash (s : string) : list string :=
  match s with
  | EmptyString => [EmptyString]
  | String c rest =>
      if Ascii.eqb c backslash then EmptyString :: split_backslash rest
      else
        match split_backslash rest with
        | part :: parts => String c part :: parts
        | [] => [String c EmptyString]
        end
  end.

(** What [DataElement.value] keeps of an assigned value.  A [str] that
    holds a backslash is split there and becomes a [MultiValue]; this is
    so for every element the script assigns a string to (their value
    representations PN, LO, CS, UI, DA and TM are not among those that
    allow a backslash).  Integers, bytes and a [MultiValue] read from
    another element are kept. *)
Definition convert_value (v : Value) : Value :=
  match v with
  | VStr s => if has_backslash s then VMulti (split_backslash s) else VStr s
  | _ => v
  end.


(** [d.<keyword> = v] on a [Dataset]. *)
Definition set_element (k : string) (v : Value) (d : Dataset) : Dataset :=
  <[k := convert_value v]> d.

(** A [FileDataset]: the dataset, its file meta dataset, the preamble
    and the two encoding flags. *)
Record FileDataset : Type := {
  filename : string;
  elements : Dataset;
  file_meta : Dataset;
  preamble : list byte;
  is_implicit_VR : bool;
  is_little_endian : bool
}.

(** [FileDataset(filename, {}, file_meta=.., preamble=..)]; the two
    flags have the constructor's defaults. *)
Definition new_FileDataset (fname : string) (meta : Dataset) (pre : list byte) : FileDataset :=
  {| filename := fname; elements := ∅; file_meta := meta; preamble := pre;
     is_implicit_VR := true; is_little_endian := true |}.

(** [ds.<keyword> = v]. *)
Definition setattr (k : string) (v : Value) (ds : FileDataset) : FileDataset :=
  {| filename := filename ds; elements := set_element k v (elements ds);
     file_meta := file_meta ds; preamble := preamble ds;
     is_implicit_VR := is_implicit_VR ds; is_little_endian := is_little_endian ds |}.

Definition set_is_little_endian (b : bool) (ds : FileDataset) : FileDataset :=
  {| filename := filename ds; elements := elements ds;
     file_meta := file_meta ds; preamble := preamble ds;
     is_implicit_VR := is_implicit_VR ds; is_little_endian := b |}.

Definition set_is_implicit_VR (b : bool) (ds : FileDataset) : FileDataset :=
  {| filename := filename ds; elements := elements ds;
     file_meta := file_meta ds; preamble := preamble ds;
     is_implicit_VR := b; is_little_endian := is_little_endian ds |}.

(** How [dcmwrite] ends: it refuses the dataset before it opens the
    file, or fails after it wrote some bytes, or writes the whole file. *)
Inductive WriteOutcome : Type :=
  | Refused
  | Failed (written : list byte)
  | Written (content : list byte).

End pydicom.

(* ===================================================================== *)
(** ** The world a call runs in *)
(* ===================================================================== *)

(** The file system (regular files with their content, and directories),
    how many UIDs were generated and how often the clock was read so far,
    and what was printed. *)
Record World : Type := {
  files : gmap string (list byte);
  dirs : gset string;
  uids_drawn : nat;
  clock_reads : nat;
  stdout : list string
}.

(** A computation changes the world and returns a value or raises. *)
Definition M (A : Type) : Type := World -> result A * World.

#[export] Instance M_ret : MRet M := fun A a w => (Ok a, w).

#[export] Instance M_bind : MBind M := fun A B f c w =>
  match c w with
  | (Ok a, w') => f a w'
  | (Raise e, w') => (Raise e, w')
  end.

Definition raise {A} (e : exn) : M A := fun w => (Raise e, w).

(** What the script takes from its libraries and from the machine. *)
Class Env : Type := {
  (** the pixel type of a decoded file, in the file's own mode *)
  pixel : Type;
  (** Pillow's format plugins: the size the file's header declares and the
      pixels, [None] for content that no plugin reads *)
  decode : list byte -> option (PIL.Source pixel);
  (** [convert('L')] and [convert('RGB')] on one pixel *)
  to_L : pixel -> byte;
  to_RGB : pixel -> byte * byte * byte;
  (** the number whose decimal digits the [n]-th call of
      [pydicom.uid.generate_uid] appends to its prefix *)
  uid_number : nat -> N;
  (** what the [n]-th reading of the wall clock shows *)
  clock : nat -> datetime;
  (** pydicom's writer *)
  dcmwrite : pydicom.FileDataset -> pydicom.WriteOutcome;
  (** [os.path.abspath] and [os.path.dirname] *)
  abspath : string -> string;
  dirname : string -> string;
  (** the directories above a directory, each the [dirname] of the one
      before, up to the root *)
  ancestors : string -> list string
}.

(** The [n]-th token of [generate_uid()]: the prefix and the decimal
    digits of a number ([prefix + str(int(...))[:avail_digits]]). *)
Definition uid_token {env : Env} (n : nat) : string :=
  pydicom.PYDICOM_ROOT_UID +:+ strftime.decimal (uid_number n).

(** The parameters of [create_dicom_from_image]. *)
Record Args : Type := {
  img_path : string;
  out_path : string;
  patient_name : string;
  patient_id : string;
  modality : string;
  study_uid : option string;
  series_uid : option string;
  sop_instance_uid : option string;
  sop_class_uid : string;
  make_monochrome : bool
}.

(** [create_dicom_from_image(img_path, out_path)]: every other parameter
    at the default of the signature. *)
Definition call_with_defaults (img_path out_path : string) : Args :=
  {| img_path := img_path;
     out_path := out_path;
     patient_name := "ANON^PATIENT";
     patient_id := "0000";
     modality := "OT";
     study_uid := None;
     series_uid := None;
     sop_instance_uid := None;
     sop_class_uid := pydicom.SecondaryCaptureImageStorage;
     make_monochrome := true |}.

Module argparse.

(** The command line as [argparse] sees it: which options are given. *)
Record CommandLine : Type := {
  opt_input : option string;
  opt_output : option string;
  opt_patient : option string;
  opt_id : option string;
  opt_modality : option string;
  opt_monochrome : bool
}.

(** The namespace [parse_args] returns. *)
Record Namespace : Type := {
  input : string;
  output : string;
  patient : string;
  id : string;
  modality : string;
  monochrome : bool
}.

(** [parse_args()]: [-i] and [-o] are required (without one of them
    argparse ends the process before anything else happens); an option
    that is not given has its [default=]; [--monochrome] is a
    [store_true] flag. *)
Definition parse_args (c : CommandLine) : option Namespace :=
  match opt_input c, opt_output c with
  | Some i, Some o =>
      Some {| input := i;
              output := o;
              patient := default "ANON^PATIENT" (opt_patient c);
              id := default "0000" (opt_id c);
              modality := default "DX" (opt_modality c);
              monochrome := opt_monochrome c |}
  | _, _ => None
  end.

End argparse.

(* ===================================================================== *)
(** ** The script *)
(* ===================================================================== *)

Section Script.

Context {env : Env}.

Import pydicom.

(** *** Library calls *)

(** [Image.open(path)]: the file must exist and hold an image Pillow
    reads.  After a plugin has read the header, [ImageFile.__init__]
    refuses the file when its width or its height is not positive.
    Pillow reads the header here and the pixels when [convert] asks for
    them; the script does nothing in between, so both are one step. *)
Definition Image_open (path : string) : M (PIL.Source pixel) := fun w =>
  match files w !! path with
  | None => (Raise DecodeError, w)
  | Some content =>
      match decode content with
      | None => (Raise DecodeError, w)
      | Some img =>
          let '(width, height) := PIL.src_size img in
          if (0 <? width)%nat && (0 <? height)%nat then (Ok img, w)
          else (Raise DecodeError, w)
      end
  end.

(** The bands of one pixel after conversion to a mode. *)
Definition bands (m : PIL.Mode) (p : pixel) : list byte :=
  match m with
  | PIL.L => [to_L p]
  | PIL.RGB => let '(r, g, b) := to_RGB p in [r; g; b]
  end.

(** [img.convert(mode)]: same size, every pixel converted. *)
Definition convert (m : PIL.Mode) (img : PIL.Source pixel) : PIL.Image :=
  {| PIL.mode := m;
     PIL.size := PIL.src_size img;
     PIL.im := map (map (bands m)) (PIL.src_rows img) |}.

(** [generate_uid()]: the next token. *)
Definition generate_uid : M string := fun w =>
  (Ok (uid_token (uids_drawn w)),
   {| files := files w; dirs := dirs w; uids_drawn := S (uids_drawn w);
      clock_reads := clock_reads w; stdout := stdout w |}).

(** [datetime.datetime.now()]. *)
Definition datetime_now : M datetime := fun w =>
  (Ok (clock (clock_reads w)),
   {| files := files w; dirs := dirs w; uids_drawn := uids_drawn w;
      clock_reads := S (clock_reads w); stdout := stdout w |}).

(** [x or e]: [e] is evaluated only when [x] is falsy. *)
Definition py_or (x : option string) (e : M string) : M string :=
  match x with
  | Some s => if truthy x then mret s else e
  | None => e
  end.

(** [a, b = t] and [a, b, c = t]. *)
Definition unpack2 (t : list nat) : M (nat * nat) :=
  match t with
  | [a; b] => mret (a, b)
  | _ => raise ValueError
  end.

Definition unpack3 (t : list nat) : M (nat * nat * nat) :=
  match t with
  | [a; b; c] => mret (a, b, c)
  | _ => raise ValueError
  end.

(** [d.<keyword>] read from a dataset. *)
Definition getattr (d : Dataset) (k : string) : M Value :=
  match d !! k with
  | Some v => mret v
  | None => raise AttributeError
  end.

(** A path that names a regular file. *)
Definition is_file (w : World) (p : string) : bool :=
  bool_decide (is_Some (files w !! p)).

(** [os.makedirs(d, exist_ok=True)]: fails when [d] or a directory above
    it is a regular file; otherwise [d] and every directory above it
    exist afterwards.  (Other refusals of the operating system, such as
    missing permissions, are not modelled.) *)
Definition os_makedirs (d : string) : M unit := fun w =>
  if existsb (is_file w) (d :: ancestors d) then (Raise WriteError, w)
  else
    (Ok tt,
     {| files := files w; dirs := list_to_set (d :: ancestors d) ∪ dirs w;
        uids_drawn := uids_drawn w; clock_reads := clock_reads w;
        stdout := stdout w |}).

(** The file at [path] holds [content]. *)
Definition write_file (path : string) (content : list byte) (w : World) : World :=
  {| files := <[path := content]> (files w); dirs := dirs w;
     uids_drawn := uids_drawn w; clock_reads := clock_reads w;
     stdout := stdout w |}.

(** [ds.save_as(path, write_like_original=False)].  The writer may refuse
    the dataset before it opens the file.  Opening the file for writing
    fails for the empty path and for a directory, and otherwise replaces
    what was there; the file then holds what the writer got out, also
    when the writer fails on the way. *)
Definition save_as (ds : FileDataset) (path : string) : M unit := fun w =>
  match dcmwrite ds with
  | Refused => (Raise WriteError, w)
  | Failed written =>
      if String.eqb path "" || bool_decide (path ∈ dirs w) then (Raise WriteError, w)
      else (Raise WriteError, write_file path written w)
  | Written content =>
      if String.eqb path "" || bool_decide (path ∈ dirs w) then (Raise WriteError, w)
      else (Ok tt, write_file path content w)
  end.

Definition print (line : string) : M unit := fun w =>
  (Ok tt,
   {| files := files w; dirs := dirs w; uids_drawn := uids_drawn w;
      clock_reads := clock_reads w; stdout := stdout w ++ [line] |}).

(** *** create_dicom_from_image *)

(** Steps 1 to 7 of [create_dicom_from_image] (lines 45 to 129): the
    dataset [ds] as it is when [save_as] is called. *)
Definition build_dataset (a : Args) : M FileDataset :=
  (* 1. read the input image *)
  img ← Image_open (img_path a);
  let '(img, photometric, samples_per_pixel) :=
    if make_monochrome a
    then (convert PIL.L img, "MONOCHROME2", 1%Z)
    else (convert PIL.RGB img, "RGB", 3%Z) in
  let arr := np.array img in
  (* 2. file meta *)
  let file_meta : Dataset := ∅ in
  let file_meta := set_element "MediaStorageSOPClassUID" (VStr (sop_class_uid a)) file_meta in
  uid ← py_or (sop_instance_uid a) generate_uid;
  let file_meta := set_element "MediaStorageSOPInstanceUID" (VStr uid) file_meta in
  let file_meta := set_element "TransferSyntaxUID" (VStr ExplicitVRLittleEndian) file_meta in
  uid ← generate_uid;
  let file_meta := set_element "ImplementationClassUID" (VStr uid) file_meta in
  (* 3. the FileDataset *)
  let ds := new_FileDataset (out_path a) file_meta (repeat x00 128) in
  (* 4. dataset attributes *)
  now ← datetime_now;
  let ds := setattr "PatientName" (VStr (patient_name a)) ds in
  let ds := setattr "PatientID" (VStr (patient_id a)) ds in
  let ds := setattr "Modality" (VStr (modality a)) ds in
  uid ← py_or (study_uid a) generate_uid;
  let ds := setattr "StudyInstanceUID" (VStr uid) ds in
  uid ← py_or (series_uid a) generate_uid;
  let ds := setattr "SeriesInstanceUID" (VStr uid) ds in
  v ← getattr file_meta "MediaStorageSOPClassUID";
  let ds := setattr "SOPClassUID" v ds in
  v ← getattr file_meta "MediaStorageSOPInstanceUID";
  let ds := setattr "SOPInstanceUID" v ds in
  let ds := setattr "StudyDate" (VStr (strftime.format "%Y%m%d" now)) ds in
  let ds := setattr "StudyTime" (VStr (strftime.format "%H%M%S" now)) ds in
  let ds := setattr "InstanceCreationDate" (VStr (strftime.format "%Y%m%d" now)) ds in
  let ds := setattr "InstanceCreationTime" (VStr (strftime.format "%H%M%S" now)) ds in
  (* 5. image attributes *)
  ds ← (if (samples_per_pixel =? 1)%Z then
          let ds := setattr "SamplesPerPixel" (VInt 1) ds in
          let ds := setattr "PhotometricInterpretation" (VStr photometric) ds in
          '(rows, columns) ← unpack2 (np.shape arr);
          let ds := setattr "Rows" (VInt (Z.of_nat rows)) ds in
          let ds := setattr "Columns" (VInt (Z.of_nat columns)) ds in
          mret ds
        else
          let ds := setattr "SamplesPerPixel" (VInt 3) ds in
          let ds := setattr "PhotometricInterpretation" (VStr photometric) ds in
          '(rows, columns, _) ← unpack3 (np.shape arr);
          let ds := setattr "Rows" (VInt (Z.of_nat rows)) ds in
          let ds := setattr "Columns" (VInt (Z.of_nat columns)) ds in
          let ds := setattr "PlanarConfiguration" (VInt 0) ds in
          mret ds);
  let ds := setattr "BitsAllocated" (VInt 8) ds in
  let ds := setattr "BitsStored" (VInt 8) ds in
  let ds := setattr "HighBit" (VInt 7) ds in
  let ds := setattr "PixelRepresentation" (VInt 0) ds in
  (* 6. pixel data *)
  let ds :=
    if (samples_per_pixel =? 1)%Z
    then setattr "PixelData" (VBytes (np.tobytes arr)) ds
    else setattr "PixelData" (VBytes (np.tobytes arr)) ds in
  (* 7. encoding flags *)
  let ds := set_is_little_endian true ds in
  let ds := set_is_implicit_VR false ds in
  mret ds.

(** [os.path.dirname(os.path.abspath(out_path)) or '.'] *)
Definition parent_directory (out_path : string) : string :=
  let d := dirname (abspath out_path) in
  if truthy (Some d) then d else ".".

Definition create_dicom_from_image (a : Args) : M string :=
  ds ← build_dataset a;
  (* 8. save the file *)
  _ ← os_makedirs (parent_directory (out_path a));
  _ ← save_as ds (out_path a);
  _ ← print ("Saved DICOM to " +:+ out_path a);
  mret (out_path a).

(** *** The dataset in closed form

    What [build_dataset] returns, written as one expression of the
    arguments, the decoded image, the number [n] of UIDs drawn before
    the call and the instant [now] the clock shows
    ([build_dataset_run] below proves the two equal). *)

(** How many tokens [x or generate_uid()] draws, and its value when [n]
    tokens were drawn before. *)
Definition draws (x : option string) : nat := if truthy x then 0 else 1.

Definition or_token (x : option string) (n : nat) : string :=
  match x with
  | Some s => if truthy x then s else uid_token n
  | None => uid_token n
  end.

Definition meta_of (a : Args) (n : nat) : Dataset :=
  <["ImplementationClassUID" :=
      convert_value (VStr (uid_token (draws (sop_instance_uid a) + n)))]>
    (<["TransferSyntaxUID" := VStr ExplicitVRLittleEndian]>
       (<["MediaStorageSOPInstanceUID" :=
            convert_value (VStr (or_token (sop_instance_uid a) n))]>
          (<["MediaStorageSOPClassUID" := convert_value (VStr (sop_class_uid a))]> ∅))).

Definition header_of (a : Args) (n : nat) (now : datetime) : Dataset :=
  let n1 := S (draws (sop_instance_uid a) + n) in
  let n2 := draws (study_uid a) + n1 in
  <["InstanceCreationTime" := convert_value (VStr (strftime.format "%H%M%S" now))]>
    (<["InstanceCreationDate" := convert_value (VStr (strftime.format "%Y%m%d" now))]>
       (<["StudyTime" := convert_value (VStr (strftime.format "%H%M%S" now))]>
          (<["StudyDate" := convert_value (VStr (strftime.format "%Y%m%d" now))]>
             (<["SOPInstanceUID" :=
                  convert_value (convert_value (VStr (or_token (sop_instance_uid a) n)))]>
                (<["SOPClassUID" :=
                     convert_value (convert_value (VStr (sop_class_uid a)))]>
                   (<["SeriesInstanceUID" :=
                        convert_value (VStr (or_token (series_uid a) n2))]>
                      (<["StudyInstanceUID" :=
                           convert_value (VStr (or_token (study_uid a) n1))]>
                         (<["Modality" := convert_value (VStr (modality a))]>
                            (<["PatientID" := convert_value (VStr (patient_id a))]>
                               (<["PatientName" :=
                                    convert_value (VStr (patient_name a))]> ∅)))))))))).

Definition image_attrs_of (a : Args) (img : PIL.Source pixel) (d : Dataset) : Dataset :=
  let rows := VInt (Z.of_nat (snd (PIL.src_size img))) in
  let columns := VInt (Z.of_nat (fst (PIL.src_size img))) in
  if make_monochrome a then
    <["Columns" := columns]>
      (<["Rows" := rows]>
         (<["PhotometricInterpretation" := VStr "MONOCHROME2"]>
            (<["SamplesPerPixel" := VInt 1]> d)))
  else
    <["PlanarConfiguration" := VInt 0]>
      (<["Columns" := columns]>
         (<["Rows" := rows]>
            (<["PhotometricInterpretation" := VStr "RGB"]>
               (<["SamplesPerPixel" := VInt 3]> d)))).

Definition pixel_bytes (a : Args) (img : PIL.Source pixel) : list byte :=
  np.tobytes (np.array (convert (if make_monochrome a then PIL.L else PIL.RGB) img)).

Definition elements_of (a : Args) (img : PIL.Source pixel) (n : nat) (now : datetime) : Dataset :=
  <["PixelData" := VBytes (pixel_bytes a img)]>
    (<["PixelRepresentation" := VInt 0]>
       (<["HighBit" := VInt 7]>
          (<["BitsStored" := VInt 8]>
             (<["BitsAllocated" := VInt 8]>
                (image_attrs_of a img (header_of a n now)))))).

Definition dataset_of (a : Args) (img : PIL.Source pixel) (n : nat) (now : datetime) : FileDataset :=
  {| filename := out_path a;
     elements := elements_of a img n now;
     file_meta := meta_of a n;
     preamble := repeat x00 128;
     is_implicit_VR := false;
     is_little_endian := true |}.

Definition world_after_build (a : Args) (w : World) : World :=
  {| files := files w;
     dirs := dirs w;
     uids_drawn :=
       draws (series_uid a) + (draws (study_uid a) + S (draws (sop_instance_uid a) + uids_drawn w));
     clock_reads := S (clock_reads w);
     stdout := stdout w |}.


(** The input path holds a file that [Image.open] accepts and decodes to
    [img]. *)
Definition opens_as (w : World) (path : string) (img : PIL.Source pixel) : Prop :=
  exists content,
    files w !! path = Some content /\ decode content = Some img /\
    0 < fst (PIL.src_size img) /\ 0 < snd (PIL.src_size img).

(** *** main *)

(** The call that [main] makes: four keyword arguments from the command
    line, the signature's defaults for the rest. *)
Definition main_call (args : argparse.Namespace) : Args :=
  let d := call_with_defaults (argparse.input args) (argparse.output args) in
  {| img_path := argparse.input args;
     out_path := argparse.output args;
     patient_name := argparse.patient args;
     patient_id := argparse.id args;
     modality := argparse.modality args;
     study_uid := study_uid d;
     series_uid := series_uid d;
     sop_instance_uid := sop_instance_uid d;
     sop_class_uid := sop_class_uid d;
     make_monochrome := argparse.monochrome args |}.

(** [main()]: [None] when argparse rejects the command line. *)
Definition main (c : argparse.CommandLine) : option (M unit) :=
  match argparse.parse_args c with
  | None => None
  | Some args => Some (_ ← create_dicom_from_image (main_call args); mret tt)
  end.

End Script.

(* ===================================================================== *)
(** ** A concrete environment *)
(* ===================================================================== *)

(** One instance of [Env] to run the script on: a raw RGB file format (a
    width byte, a height byte, then three bytes per pixel, row by row;
    its header may declare no width or no height, which [Image_open] then
    refuses), Pillow's ITU-R 601-2 luma transform, UIDs numbered from 0,
    a fixed clock, a writer that emits preamble, magic marker and pixel
    data, and POSIX paths below [/work]. *)
Module Sample.

Definition rgb_pixel : Type := byte * byte * byte.

Definition decode_raw (content : list byte) : option (PIL.Source rgb_pixel) :=
  match content with
  | bw :: bh :: body =>
      let w := Byte.to_nat bw in
      let h := Byte.to_nat bh in
      if (length body =? 3 * (w * h))%nat then
        Some {| PIL.src_size := (w, h);
                PIL.src_rows :=
                  map (fun i =>
                         map (fun j =>
                                let k := 3 * (i * w + j) in
                                (nth k body x00,
                                 nth (k + 1) body x00,
                                 nth (k + 2) body x00))
                             (seq 0 w))
                      (seq 0 h) |}
      else None
  | _ => None
  end.

Definition luma (p : rgb_pixel) : byte :=
  let '(r, g, b) := p in
  default xff
    (Byte.of_N ((Byte.to_N r * 19595 + Byte.to_N g * 38470 + Byte.to_N b * 7471 + 32768) / 65536)%N).

Definition fixed_clock (n : nat) : datetime :=
  {| year := 2024; month := 3; day := 9; hour := 7; minute := 5; second := 2 |}%N.

Definition pixel_data (ds : pydicom.FileDataset) : list byte :=
  match pydicom.elements ds !! "PixelData" with
  | Some (VBytes b) => b
  | _ => []
  end.

Definition write_raw (ds : pydicom.FileDataset) : pydicom.WriteOutcome :=
  pydicom.Written (pydicom.preamble ds ++ [x44; x49; x43; x4d] ++ pixel_data ds)%list.

Definition posix_abspath (p : string) : string :=
  match p with
  | String "/" _ => p
  | _ => "/work/" +:+ p
  end.

(** The part of a path before its last slash. *)
Fixpoint before_last_slash (p : string) : option string :=
  match p with
  | EmptyString => None
  | String c rest =>
      match before_last_slash rest with
      | Some d => Some (String c d)
      | None => if Ascii.eqb c "/" then Some "" else None
      end
  end.

Definition posix_dirname (p : string) : string :=
  match before_last_slash p with
  | Some "" => "/"
  | Some d => d
  | None => ""
  end.

(** The directories above [d], nearest first, without the root. *)
Fixpoint dirs_above (fuel : nat) (d : string) : list string :=
  match fuel with
  | O => []
  | S f =>
      let up := posix_dirname d in
      if String.eqb up d || String.eqb up "" || String.eqb up "/" then []
      else up :: dirs_above f up
  end.

Definition posix_ancestors (d : string) : list string :=
  dirs_above (String.length d) d.

Definition env : Env :=
  {| pixel := rgb_pixel;
     decode := decode_raw;
     to_L := luma;
     to_RGB := fun p => p;
     uid_number := N.of_nat;
     clock := fixed_clock;
     dcmwrite := write_raw;
     abspath := posix_abspath;
     dirname := posix_dirname;
     ancestors := posix_ancestors |}.

(** A 2x1 image (a red and a white pixel) and a file whose header
    declares width 5 and height 0. *)
Definition xray_png : list byte :=
  [x02; x01; xff; x00; x00; xff; xff; xff].

Definition empty_png : list byte := [x05; x00].

(** What the plugin reads from the two files. *)
Definition xray : PIL.Source rgb_pixel :=
  {| PIL.src_size := (2, 1);
     PIL.src_rows := [[(xff, x00, x00); (xff, xff, xff)]] |}.

Definition empty : PIL.Source rgb_pixel :=
  {| PIL.src_size := (5, 0); PIL.src_rows := [] |}.

Definition world : World :=
  {| files := {[ "xray.png" := xray_png; "empty.png" := empty_png;
                 "old.dcm" := [x01; x02; x03] ]};
     dirs := {[ "/work" ]};
     uids_drawn := 0;
     clock_reads := 0;
     stdout := [] |}.

Definition supplied_uids : Args :=
  {| img_path := "xray.png";
     out_path := "out/xray.dcm";
     patient_name := "DOE^John";
     patient_id := "12345";
     modality := "DX";
     study_uid := Some "1.2.3.1";
     series_uid := Some "1.2.3.2";
     sop_instance_uid := Some "1.2.3.3";
     sop_class_uid := pydicom.SecondaryCaptureImageStorage;
     make_monochrome := false |}.


End Sample.
(* ===================================================================== *)
(** ** Buffers of uniform rows *)
(* ===================================================================== *)

Section Buffers.

Context {A : Type}.

Lemma length_concat_uniform (n : nat) (ls : list (list A)) :
  Forall (fun l => length l = n) ls ->
  length (concat ls) = length ls * n.
Proof.
  induction 1 as [|l ls Hl _ IH]; simpl; [reflexivity|].
  rewrite length_app, IH, Hl. reflexivity.
Qed.

(** In the concatenation of chunks of [n] elements each, element [j] of
    chunk [i] sits at index [i * n + j]. *)
Lemma lookup_concat_uniform (n : nat) (ls : list (list A)) :
  Forall (fun l => length l = n) ls ->
  forall i j l x,
    ls !! i = Some l -> l !! j = Some x ->
    concat ls !! (i * n + j) = Some x.
Proof.
  induction 1 as [|l0 ls Hl0 _ IH]; intros i j l x Hi Hj.
  - destruct i; discriminate.
  - destruct i as [|i]; simpl in *.
    + injection Hi as ->.
      rewrite lookup_app_l by (eapply lookup_lt_Some; eassumption).
      assumption.
    + rewrite lookup_app_r by lia.
      replace (n + i * n + j - length l0) with (i * n + j) by lia.
      eapply IH; eassumption.
Qed.

End Buffers.

Section PixelBuffer.

Context {P : Type} (g : P -> list byte) (b : nat).
Hypothesis g_bands : forall p, length (g p) = b.

(** The buffer [np.array] makes of a grid whose pixels [g] turns into
    [b] bands each. *)
Local Abbreviation flat rows := (concat (map (@concat byte) (map (map g) rows))).

Lemma flat_rows (rows : list (list P)) (C : nat) :
  Forall (fun row => length row = C) rows ->
  Forall (fun l => length l = C * b) (map (@concat byte) (map (map g) rows)).
Proof.
  intros H. rewrite map_map. apply Forall_map.
  eapply Forall_impl; [exact H|]. intros row Hrow. simpl.
  rewrite (length_concat_uniform b).
  - rewrite length_map, Hrow. reflexivity.
  - apply Forall_map. apply Forall_forall. intros p _. apply g_bands.
Qed.

Lemma length_flat (rows : list (list P)) (R C : nat) :
  length rows = R -> Forall (fun row => length row = C) rows ->
  length (flat rows) = R * C * b.
Proof.
  intros HR HC.
  rewrite (length_concat_uniform (C * b)) by (apply flat_rows; exact HC).
  rewrite !length_map, HR. lia.
Qed.

Lemma lookup_flat (rows : list (list P)) (C : nat) :
  Forall (fun row => length row = C) rows ->
  forall i j k row p x,
    rows !! i = Some row -> row !! j = Some p -> g p !! k = Some x ->
    flat rows !! (b * (i * C + j) + k) = Some x.
Proof.
  intros HC i j k row p x Hi Hj Hk.
  replace (b * (i * C + j) + k) with (i * (C * b) + (j * b + k)) by lia.
  eapply (lookup_concat_uniform (C * b)).
  - apply flat_rows. exact HC.
  - rewrite !list_lookup_fmap, Hi. reflexivity.
  - eapply (lookup_concat_uniform b).
    + apply Forall_map. apply Forall_forall. intros q _. apply g_bands.
    + rewrite list_lookup_fmap, Hj. reflexivity.
    + exact Hk.
Qed.

End PixelBuffer.

(* ===================================================================== *)
(** ** strftime *)
(* ===================================================================== *)

Module strftime_facts.

Import strftime.

Lemma reads_asb_sound width n s : reads_asb width n s = true -> reads_as width n s.
Proof.
  unfold reads_asb, reads_as. intros H.
  apply andb_prop in H as [Hlen Hparse].
  apply Nat.eqb_eq in Hlen.
  destruct (parse_decimal s) as [m|]; [|discriminate].
  apply N.eqb_eq in Hparse. subst m. split; [assumption | reflexivity].
Qed.

(** Every number of a range passes a check that was run on the whole
    range. *)
Lemma checked_range (check : N -> bool) (lo len : N) :
  forallb check (map N.of_nat (seq (N.to_nat lo) (N.to_nat len))) = true ->
  forall n : N, (lo <= n < lo + len)%N -> check n = true.
Proof.
  intros Hall n Hn.
  rewrite forallb_forall in Hall. apply Hall.
  apply in_map_iff. exists (N.to_nat n). split; [apply N2Nat.id|].
  apply in_seq. lia.
Qed.

Lemma two_digits_reads_as (n : N) : (n <= 99)%N -> reads_as 2 n (two_digits n).
Proof.
  intros Hn. apply reads_asb_sound.
  apply (checked_range (fun n => reads_asb 2 n (two_digits n)) 0 100)%N; [|lia].
  vm_compute. reflexivity.
Qed.

Lemma decimal_reads_as (n : N) : (1000 <= n <= 9999)%N -> reads_as 4 n (decimal n).
Proof.
  intros Hn. apply reads_asb_sound.
  apply (checked_range (fun n => reads_asb 4 n (decimal n)) 1000 9000)%N; [|lia].
  vm_compute. reflexivity.
Qed.

Lemma format_date (d : datetime) :
  format "%Y%m%d" d = decimal (year d) +:+ two_digits (month d) +:+ two_digits (day d).
Proof. reflexivity. Qed.

Lemma format_time (d : datetime) :
  format "%H%M%S" d = two_digits (hour d) +:+ two_digits (minute d) +:+ two_digits (second d).
Proof. reflexivity. Qed.

End strftime_facts.

(* ===================================================================== *)
(** ** Decimal numbers read back *)
(* ===================================================================== *)

Module decimal_facts.

Import strftime.

Lemma digit_value_digit (n : N) : digit_value (digit n) = Some (n mod 10)%N.
Proof.
  unfold digit.
  assert (Hr : (0 <= n mod 10 < 0 + 10)%N).
  { split; [apply N.le_0_l | apply N.mod_lt; discriminate]. }
  pose proof (strftime_facts.checked_range
                (fun r => match digit_value (ascii_of_N (48 + r)) with
                          | Some v => (v =? r)%N
                          | None => false
                          end) 0 10 eq_refl _ Hr) as Hcheck.
  cbv beta in Hcheck.
  destruct (digit_value (ascii_of_N (48 + n mod 10))) as [v|]; [|discriminate].
  apply N.eqb_eq in Hcheck. congruence.
Qed.

Lemma parse_from_digit (a n : N) (s : string) :
  parse_from a (String (digit n) s) = parse_from (10 * a + n mod 10) s.
Proof. cbn [parse_from]. rewrite digit_value_digit. reflexivity. Qed.

Lemma digits_of_S (f : nat) (n : N) (acc : string) :
  digits_of (S f) n acc =
  if (n / 10 =? 0)%N then String (digit n) acc
  else digits_of f (n / 10) (String (digit n) acc).
Proof. reflexivity. Qed.

(** With fuel for every binary place, the digits written in front of
    [acc] read back as [n]. *)
Lemma parse_digits_of (f : nat) :
  forall (n : N) (acc : string),
    (n < 2 ^ N.of_nat (S f))%N ->
    parse_from 0 (digits_of (S f) n acc) = parse_from n acc.
Proof.
  induction f as [|f IH]; intros n acc Hn; rewrite digits_of_S.
  - change (2 ^ N.of_nat 1)%N with 2%N in Hn.
    replace (n / 10 =? 0)%N with true
      by (symmetry; apply N.eqb_eq, N.div_small; lia).
    rewrite parse_from_digit. f_equal. rewrite N.mod_small; lia.
  - destruct (n / 10 =? 0)%N eqn:Hq.
    + apply N.eqb_eq in Hq. rewrite parse_from_digit. f_equal.
      pose proof (N.div_mod n 10). lia.
    + rewrite IH.
      * rewrite parse_from_digit. f_equal. pose proof (N.div_mod n 10). lia.
      * rewrite Nat2N.inj_succ, N.pow_succ_r' in Hn.
        apply N.Div0.div_lt_upper_bound. lia.
Qed.

Lemma size_nat_bound (n : N) : (n < 2 ^ N.of_nat (N.size_nat n))%N.
Proof.
  destruct n as [|p]; [reflexivity|]. cbn [N.size_nat].
  induction p as [p IH|p IH|]; cbn [Pos.size_nat].
  - rewrite Nat2N.inj_succ, N.pow_succ_r'. lia.
  - rewrite Nat2N.inj_succ, N.pow_succ_r'. lia.
  - reflexivity.
Qed.

Lemma digits_of_not_empty (f : nat) :
  forall (n : N) (acc : string), acc <> "" -> digits_of f n acc <> "".
Proof.
  induction f as [|f IH]; intros n acc Hacc; [exact Hacc|].
  rewrite digits_of_S. destruct (n / 10 =? 0)%N; [discriminate|]. apply IH. discriminate.
Qed.

(** [decimal] can be read back, whatever the number. *)
Lemma parse_decimal_decimal (n : N) : parse_decimal (decimal n) = Some n.
Proof.
  unfold decimal.
  assert (Hne : digits_of (S (N.size_nat n)) n "" <> "").
  { rewrite digits_of_S. destruct (n / 10 =? 0)%N; [discriminate|].
    apply digits_of_not_empty. discriminate. }
  unfold parse_decimal.
  destruct (digits_of (S (N.size_nat n)) n "") eqn:Hd; [contradiction|].
  rewrite <- Hd, parse_digits_of; [reflexivity|].
  pose proof (size_nat_bound n).
  rewrite Nat2N.inj_succ, N.pow_succ_r'. lia.
Qed.

Lemma append_cancel (p a b : string) : p +:+ a = p +:+ b -> a = b.
Proof.
  induction p as [|c p IH]; cbn [String.append]; intros H; [exact H|].
  injection H as H. exact (IH H).
Qed.

End decimal_facts.

(* ===================================================================== *)
(** ** Values without a backslash *)
(* ===================================================================== *)

Module backslash_facts.

Import strftime pydicom.

Lemma has_backslash_append (a b : string) :
  has_backslash (a +:+ b) = has_backslash a || has_backslash b.
Proof.
  induction a as [|c a IH]; simpl; [reflexivity|].
  rewrite IH, orb_assoc. reflexivity.
Qed.

Lemma digit_not_backslash (n : N) : Ascii.eqb (digit n) backslash = false.
Proof.
  unfold digit.
  assert (Hr : (0 <= n mod 10 < 0 + 10)%N).
  { split; [apply N.le_0_l | apply N.mod_lt; discriminate]. }
  pose proof (strftime_facts.checked_range
                (fun r => negb (Ascii.eqb (ascii_of_N (48 + r)) backslash))
                0 10 eq_refl _ Hr) as Hcheck.
  cbv beta in Hcheck. apply negb_true_iff in Hcheck. exact Hcheck.
Qed.

Lemma has_backslash_digits_of (f : nat) :
  forall (n : N) (acc : string),
    has_backslash (digits_of f n acc) = has_backslash acc.
Proof.
  induction f as [|f IH]; intros n acc; [reflexivity|].
  rewrite decimal_facts.digits_of_S.
  destruct (n / 10 =? 0)%N; [|rewrite IH];
    cbn [has_backslash]; rewrite digit_not_backslash; reflexivity.
Qed.

Lemma has_backslash_decimal (n : N) : has_backslash (decimal n) = false.
Proof. unfold decimal. rewrite has_backslash_digits_of. reflexivity. Qed.

Lemma has_backslash_two_digits (n : N) : has_backslash (two_digits n) = false.
Proof.
  unfold two_digits. cbn [has_backslash].
  rewrite !digit_not_backslash. reflexivity.
Qed.

Lemma has_backslash_date (d : datetime) : has_backslash (format "%Y%m%d" d) = false.
Proof.
  rewrite strftime_facts.format_date, !has_backslash_append,
    has_backslash_decimal, !has_backslash_two_digits. reflexivity.
Qed.

Lemma has_backslash_time (d : datetime) : has_backslash (format "%H%M%S" d) = false.
Proof.
  rewrite strftime_facts.format_time, !has_backslash_append,
    !has_backslash_two_digits. reflexivity.
Qed.

(** A string without a backslash is stored as it is. *)
Lemma convert_value_plain (s : string) :
  has_backslash s = false -> convert_value (VStr s) = VStr s.
Proof. intros H. cbn [convert_value]. rewrite H. reflexivity. Qed.


(** Assigning a value that was read from an element stores it again. *)
Lemma convert_value_idem (v : Value) : convert_value (convert_value v) = convert_value v.
Proof.
  destruct v as [s| | | |l]; try reflexivity.
  cbn [convert_value]. destruct (has_backslash s) eqn:H; [reflexivity|].
  cbn [convert_value]. rewrite H. reflexivity.
Qed.

End backslash_facts.
(* ===================================================================== *)
(** ** What build_dataset returns *)
(* ===================================================================== *)

Section Properties.

Context {env : Env}.

Import pydicom.

Lemma bind_run {A B} (c : M A) (f : A -> M B) (w : World) :
  (c ≫= f) w =
  match c w with
  | (Ok x, w') => f x w'
  | (Raise e, w') => (Raise e, w')
  end.
Proof. reflexivity. Qed.

Lemma Image_open_ok w path img :
  opens_as w path img -> Image_open path w = (Ok img, w).
Proof.
  intros (content & Hfile & Hdecode & Hwidth & Hheight). unfold Image_open.
  rewrite Hfile, Hdecode. destruct (PIL.src_size img) as [width height].
  cbn [fst snd] in *.
  apply Nat.ltb_lt in Hwidth, Hheight. rewrite Hwidth, Hheight. reflexivity.
Qed.

(** [Image.open] either gives an image or raises [DecodeError]; it
    leaves the world as it is. *)
Lemma Image_open_cases w path :
  (exists img, opens_as w path img /\ Image_open path w = (Ok img, w)) \/
  ((forall img, ~ opens_as w path img) /\ Image_open path w = (Raise DecodeError, w)).
Proof.
  unfold Image_open, opens_as.
  destruct (files w !! path) as [content|] eqn:Hfile.
  - destruct (decode content) as [img|] eqn:Hdecode.
    + destruct (PIL.src_size img) as [width height] eqn:Hsize.
      destruct ((0 <? width)%nat && (0 <? height)%nat) eqn:Hpos.
      * apply andb_prop in Hpos as [Hwidth Hheight].
        apply Nat.ltb_lt in Hwidth, Hheight.
        left. exists img. split; [|reflexivity].
        exists content. rewrite Hsize. auto.
      * right. split; [|reflexivity].
        intros img' (c & Hc & Hd & Hwidth & Hheight).
        assert (img' = img) by congruence. subst img'.
        rewrite Hsize in Hwidth, Hheight. cbn [fst snd] in *.
        apply Nat.ltb_lt in Hwidth, Hheight.
        rewrite Hwidth, Hheight in Hpos. discriminate.
    + right. split; [|reflexivity].
      intros img (c & Hc & Hd & _). congruence.
  - right. split; [|reflexivity].
    intros img (c & Hc & Hd & _). congruence.
Qed.

(** A generated token is the prefix and decimal digits: it holds no
    backslash and is stored as it is. *)
Lemma has_backslash_uid_token (n : nat) : has_backslash (uid_token n) = false.
Proof.
  unfold uid_token.
  rewrite backslash_facts.has_backslash_append, backslash_facts.has_backslash_decimal.
  reflexivity.
Qed.

Lemma convert_value_uid_token (n : nat) :
  convert_value (VStr (uid_token n)) = VStr (uid_token n).
Proof. apply backslash_facts.convert_value_plain, has_backslash_uid_token. Qed.

(** Reading one attribute from a chain of assignments. *)
Local Ltac read_attr :=
  repeat (rewrite lookup_insert_ne by discriminate);
  first [apply lookup_insert_eq | apply lookup_empty].

Local Ltac case_or x :=
  let s := fresh "s" in
  destruct x as [s|]; [destruct (truthy (Some s))|].

(** With an input that opens, steps 1 to 7 raise nothing and return the
    dataset of the closed form. *)
Lemma build_dataset_run a w img :
  opens_as w (img_path a) img ->
  build_dataset a w =
  (Ok (dataset_of a img (uids_drawn w) (clock (clock_reads w))), world_after_build a w).
Proof.
  intros Hopen. unfold build_dataset. rewrite bind_run, (Image_open_ok _ _ _ Hopen).
  unfold dataset_of, world_after_build, elements_of, image_attrs_of, header_of,
    meta_of, pixel_bytes, py_or, draws, or_token.
  destruct img as [[wd ht] rows].
  case_or (sop_instance_uid a); case_or (study_uid a); case_or (series_uid a);
    destruct (make_monochrome a); reflexivity.
Qed.

(** With an input that does not open, they raise [DecodeError] at the
    first statement. *)
Lemma build_dataset_fails a w :
  (forall img, ~ opens_as w (img_path a) img) ->
  build_dataset a w = (Raise DecodeError, w).
Proof.
  intros Hno. unfold build_dataset. rewrite bind_run.
  destruct (Image_open_cases w (img_path a)) as [(img & Hopen & _)|[_ ->]].
  - destruct (Hno img Hopen).
  - reflexivity.
Qed.

Lemma length_bands_L p : length (bands PIL.L p) = 1.
Proof. reflexivity. Qed.

Lemma length_bands_RGB p : length (bands PIL.RGB p) = 3.
Proof. unfold bands. destruct (to_RGB p) as [[r g] b]. reflexivity. Qed.

Lemma pixel_bytes_L a img :
  make_monochrome a = true ->
  pixel_bytes a img = concat (map (@concat byte) (map (map (bands PIL.L)) (PIL.src_rows img))).
Proof.
  intros H. unfold pixel_bytes, np.tobytes, np.array, convert. rewrite H. cbn.
  destruct (PIL.src_size img). reflexivity.
Qed.

Lemma pixel_bytes_RGB a img :
  make_monochrome a = false ->
  pixel_bytes a img = concat (map (@concat byte) (map (map (bands PIL.RGB)) (PIL.src_rows img))).
Proof.
  intros H. unfold pixel_bytes, np.tobytes, np.array, convert. rewrite H. cbn.
  destruct (PIL.src_size img). reflexivity.
Qed.

(** C1: for a valid input image of height [R] and width [C] converted with
    the monochrome flag set, the dataset has Rows = R, Columns = C,
    SamplesPerPixel = 1, PhotometricInterpretation = "MONOCHROME2", no
    PlanarConfiguration, and a PixelData buffer of R*C bytes in row-major
    order: the byte at [i * C + j] is the grey value of the pixel in row
    [i] and column [j]. *)
Theorem monochrome_dataset a w img R C :
  make_monochrome a = true ->
  opens_as w (img_path a) img ->
  PIL.well_formed img ->
  PIL.src_size img = (C, R) ->
  exists ds w' buf,
    build_dataset a w = (Ok ds, w') /\
    elements ds !! "Rows" = Some (VInt (Z.of_nat R)) /\
    elements ds !! "Columns" = Some (VInt (Z.of_nat C)) /\
    elements ds !! "SamplesPerPixel" = Some (VInt 1) /\
    elements ds !! "PhotometricInterpretation" = Some (VStr "MONOCHROME2") /\
    elements ds !! "PlanarConfiguration" = None /\
    elements ds !! "PixelData" = Some (VBytes buf) /\
    length buf = R * C /\
    forall i j row p,
      PIL.src_rows img !! i = Some row -> row !! j = Some p ->
      buf !! (i * C + j) = Some (to_L p).
Proof.
  intros Hmono Hopen [Hrows Hcols] Hsize.
  rewrite Hsize in Hrows, Hcols. simpl in Hrows, Hcols.
  eexists _, _, (pixel_bytes a img). split; [apply build_dataset_run; exact Hopen|].
  cbn [elements dataset_of]. unfold elements_of, image_attrs_of.
  rewrite Hmono, Hsize.
  repeat (split; [reflexivity|]).
  rewrite (pixel_bytes_L _ _ Hmono). split.
  - rewrite (length_flat (bands PIL.L) 1 length_bands_L _ R C) by assumption. lia.
  - intros i j row p Hi Hj.
    replace (i * C + j) with (1 * (i * C + j) + 0) by lia.
    eapply (lookup_flat (bands PIL.L) 1 length_bands_L); eauto.
Qed.

(** C2: for a valid input image of height [R] and width [C] converted
    without the monochrome flag, the dataset has Rows = R, Columns = C,
    SamplesPerPixel = 3, PhotometricInterpretation = "RGB",
    PlanarConfiguration = 0, and a PixelData buffer of R*C*3 bytes in
    interleaved order: the three bytes from [3 * (i * C + j)] on are the
    red, green and blue bands of the pixel in row [i] and column [j]. *)
Theorem rgb_dataset a w img R C :
  make_monochrome a = false ->
  opens_as w (img_path a) img ->
  PIL.well_formed img ->
  PIL.src_size img = (C, R) ->
  exists ds w' buf,
    build_dataset a w = (Ok ds, w') /\
    elements ds !! "Rows" = Some (VInt (Z.of_nat R)) /\
    elements ds !! "Columns" = Some (VInt (Z.of_nat C)) /\
    elements ds !! "SamplesPerPixel" = Some (VInt 3) /\
    elements ds !! "PhotometricInterpretation" = Some (VStr "RGB") /\
    elements ds !! "PlanarConfiguration" = Some (VInt 0) /\
    elements ds !! "PixelData" = Some (VBytes buf) /\
    length buf = R * C * 3 /\
    forall i j row p r g b,
      PIL.src_rows img !! i = Some row -> row !! j = Some p ->
      to_RGB p = (r, g, b) ->
      buf !! (3 * (i * C + j)) = Some r /\
      buf !! (3 * (i * C + j) + 1) = Some g /\
      buf !! (3 * (i * C + j) + 2) = Some b.
Proof.
  intros Hrgb Hopen [Hrows Hcols] Hsize.
  rewrite Hsize in Hrows, Hcols. simpl in Hrows, Hcols.
  eexists _, _, (pixel_bytes a img). split; [apply build_dataset_run; exact Hopen|].
  cbn [elements dataset_of]. unfold elements_of, image_attrs_of.
  rewrite Hrgb, Hsize.
  repeat (split; [reflexivity|]).
  rewrite (pixel_bytes_RGB _ _ Hrgb). split.
  - apply (length_flat (bands PIL.RGB) 3 length_bands_RGB); assumption.
  - intros i j row p r g b Hi Hj Hp.
    assert (Hband : forall k x, [r; g; b] !! k = Some x ->
              concat (map (@concat byte) (map (map (bands PIL.RGB)) (PIL.src_rows img)))
                !! (3 * (i * C + j) + k) = Some x).
    { intros k x Hk.
      eapply (lookup_flat (bands PIL.RGB) 3 length_bands_RGB); eauto.
      unfold bands. rewrite Hp. exact Hk. }
    rewrite <- (Nat.add_0_r (3 * (i * C + j))) at 1.
    repeat split; apply Hband; reflexivity.
Qed.

(** C3: the dataset's encoding flags agree with the transfer syntax the
    file meta declares: TransferSyntaxUID is Explicit VR Little Endian,
    [is_little_endian] is true and [is_implicit_VR] is false, which is
    what that transfer syntax means. *)
Theorem encoding_flags_match_transfer_syntax a w img :
  opens_as w (img_path a) img ->
  exists ds w',
    build_dataset a w = (Ok ds, w') /\
    file_meta ds !! "TransferSyntaxUID" = Some (VStr ExplicitVRLittleEndian) /\
    is_little_endian ds = true /\
    is_implicit_VR ds = false /\
    forall ts,
      file_meta ds !! "TransferSyntaxUID" = Some (VStr ts) ->
      uid_is_little_endian ts = Some (is_little_endian ds) /\
      uid_is_implicit_VR ts = Some (is_implicit_VR ds).
Proof.
  intros Hopen.
  eexists _, _. split; [apply build_dataset_run; exact Hopen|].
  cbn [file_meta is_little_endian is_implicit_VR dataset_of]. unfold meta_of.
  split; [read_attr|]. split; [reflexivity|]. split; [reflexivity|].
  intros ts Heq. rewrite lookup_insert_ne, lookup_insert_eq in Heq by discriminate.
  injection Heq as <-. split; reflexivity.
Qed.

(** C4: whatever the image and the arguments, the dataset has
    BitsAllocated = 8, BitsStored = 8, HighBit = 7 and
    PixelRepresentation = 0. *)
Theorem sample_format_is_fixed a w img :
  opens_as w (img_path a) img ->
  exists ds w',
    build_dataset a w = (Ok ds, w') /\
    elements ds !! "BitsAllocated" = Some (VInt 8) /\
    elements ds !! "BitsStored" = Some (VInt 8) /\
    elements ds !! "HighBit" = Some (VInt 7) /\
    elements ds !! "PixelRepresentation" = Some (VInt 0).
Proof.
  intros Hopen.
  eexists _, _. split; [apply build_dataset_run; exact Hopen|].
  cbn [elements dataset_of]. unfold elements_of.
  repeat split; read_attr.
Qed.

(** C9: SOPClassUID in the dataset equals MediaStorageSOPClassUID in the
    file meta, and SOPInstanceUID equals MediaStorageSOPInstanceUID. *)
Theorem sop_uids_consistent a w img :
  opens_as w (img_path a) img ->
  exists ds w' class instance,
    build_dataset a w = (Ok ds, w') /\
    elements ds !! "SOPClassUID" = Some class /\
    file_meta ds !! "MediaStorageSOPClassUID" = Some class /\
    elements ds !! "SOPInstanceUID" = Some instance /\
    file_meta ds !! "MediaStorageSOPInstanceUID" = Some instance.
Proof.
  intros Hopen.
  eexists _, _, (convert_value (VStr (sop_class_uid a))),
    (convert_value (VStr (or_token (sop_instance_uid a) (uids_drawn w)))).
  split; [apply build_dataset_run; exact Hopen|].
  cbn [elements file_meta dataset_of].
  unfold elements_of, image_attrs_of, header_of, meta_of.
  rewrite !backslash_facts.convert_value_idem.
  destruct (make_monochrome a); repeat split; reflexivity.
Qed.

(** Step 8 after steps 1 to 7. *)
Lemma create_dicom_from_image_run a w img :
  opens_as w (img_path a) img ->
  create_dicom_from_image a w =
  (_ ← os_makedirs (parent_directory (out_path a));
   _ ← save_as (dataset_of a img (uids_drawn w) (clock (clock_reads w))) (out_path a);
   _ ← print ("Saved DICOM to " +:+ out_path a);
   mret (out_path a)) (world_after_build a w).
Proof.
  intros Hopen. unfold create_dicom_from_image.
  rewrite bind_run, (build_dataset_run _ _ _ Hopen). reflexivity.
Qed.

(** Saving reads no clock, and raises nothing but [WriteError]. *)
Lemma save_steps (ds : FileDataset) (path : string) (w : World) :
  let r := (_ ← os_makedirs (parent_directory path);
            _ ← save_as ds path;
            _ ← print ("Saved DICOM to " +:+ path);
            mret path) w in
  clock_reads (snd r) = clock_reads w /\
  uids_drawn (snd r) = uids_drawn w /\
  (fst r = Ok path \/ fst r = Raise WriteError).
Proof.
  cbv zeta. rewrite bind_run. unfold os_makedirs.
  destruct (existsb _ _); [cbn; auto|].
  rewrite bind_run. unfold save_as, write_file.
  cbn [files dirs uids_drawn clock_reads stdout].
  destruct (dcmwrite ds) as [|written|content]; [cbn; auto| |];
    destruct (_ || _); cbn; auto.
Qed.

(** The call as a whole raises [DecodeError] or [WriteError] or returns
    the output path. *)
Lemma create_dicom_from_image_result a w :
  fst (create_dicom_from_image a w) = Ok (out_path a) \/
  fst (create_dicom_from_image a w) = Raise DecodeError \/
  fst (create_dicom_from_image a w) = Raise WriteError.
Proof.
  destruct (Image_open_cases w (img_path a)) as [(img & Hopen & _)|[Hno _]].
  - rewrite (create_dicom_from_image_run _ _ _ Hopen).
    destruct (save_steps (dataset_of a img (uids_drawn w) (clock (clock_reads w)))
                (out_path a) (world_after_build a w)) as (_ & _ & [H|H]); auto.
  - unfold create_dicom_from_image. rewrite bind_run, (build_dataset_fails _ _ Hno). auto.
Qed.

(** C5: the clock is read once, during steps 1 to 7 and in the whole call;
    StudyDate equals InstanceCreationDate and is year, month and day of
    that one instant in 4 + 2 + 2 decimal digits; StudyTime equals
    InstanceCreationTime and is its hour, minute and second in 2 + 2 + 2
    decimal digits. *)
Theorem timestamps_from_one_instant a w img :
  opens_as w (img_path a) img ->
  valid_datetime (clock (clock_reads w)) ->
  exists ds w' date time,
    build_dataset a w = (Ok ds, w') /\
    clock_reads w' = S (clock_reads w) /\
    clock_reads (snd (create_dicom_from_image a w)) = S (clock_reads w) /\
    elements ds !! "StudyDate" = Some (VStr date) /\
    elements ds !! "InstanceCreationDate" = Some (VStr date) /\
    elements ds !! "StudyTime" = Some (VStr time) /\
    elements ds !! "InstanceCreationTime" = Some (VStr time) /\
    (exists y m d,
        date = y +:+ m +:+ d /\
        strftime.reads_as 4 (year (clock (clock_reads w))) y /\
        strftime.reads_as 2 (month (clock (clock_reads w))) m /\
        strftime.reads_as 2 (day (clock (clock_reads w))) d) /\
    (exists h m s,
        time = h +:+ m +:+ s /\
        strftime.reads_as 2 (hour (clock (clock_reads w))) h /\
        strftime.reads_as 2 (minute (clock (clock_reads w))) m /\
        strftime.reads_as 2 (second (clock (clock_reads w))) s).
Proof.
  intros Hopen (Hy & Hm & Hd & HH & HM & HS).
  eexists _, _, _, _. split; [apply build_dataset_run; exact Hopen|].
  split; [reflexivity|]. split.
  { rewrite (create_dicom_from_image_run _ _ _ Hopen).
    destruct (save_steps (dataset_of a img (uids_drawn w) (clock (clock_reads w)))
                (out_path a) (world_after_build a w)) as (-> & _). reflexivity. }
  cbn [elements dataset_of]. unfold elements_of, image_attrs_of, header_of.
  rewrite !(backslash_facts.convert_value_plain _ (backslash_facts.has_backslash_date _)),
    !(backslash_facts.convert_value_plain _ (backslash_facts.has_backslash_time _)).
  destruct (make_monochrome a).
  all: do 4 (split; [read_attr|]).
  all: split;
    [ rewrite strftime_facts.format_date; eexists _, _, _; split; [reflexivity|];
      split; [apply strftime_facts.decimal_reads_as; lia|];
      split; apply strftime_facts.two_digits_reads_as; lia
    | rewrite strftime_facts.format_time; eexists _, _, _; split; [reflexivity|];
      split; [|split]; apply strftime_facts.two_digits_reads_as; lia ].
Qed.

Lemma truthy_spec (x : option string) :
  truthy x = true <-> exists s, x = Some s /\ s ≠ "".
Proof.
  destruct x as [s|]; simpl.
  - rewrite negb_true_iff, String.eqb_neq. split.
    + intros H. exists s. auto.
    + intros (s' & [= <-] & H). exact H.
  - split; [discriminate | intros (s & [=] & _)].
Qed.


(** C7, amended: a file whose image has no rows or no columns is refused
    by [Image.open] like any file that is no image: the call raises
    [DecodeError], not [InvalidImageError], which the script never
    raises, and leaves the world as it was, so no output file is
    produced. *)
Theorem degenerate_image_is_refused a w content img :
  files w !! img_path a = Some content ->
  decode content = Some img ->
  fst (PIL.src_size img) = 0 \/ snd (PIL.src_size img) = 0 ->
  create_dicom_from_image a w = (Raise DecodeError, w) /\
  fst (create_dicom_from_image a w) <> Raise InvalidImageError /\
  files (snd (create_dicom_from_image a w)) !! out_path a = files w !! out_path a.
Proof.
  intros Hfile Hdecode Hzero.
  assert (Hrun : create_dicom_from_image a w = (Raise DecodeError, w)).
  { unfold create_dicom_from_image. rewrite bind_run, build_dataset_fails; [reflexivity|].
    intros img' (content' & Hfile' & Hdecode' & Hwidth & Hheight).
    assert (img' = img) by congruence. subst img'. lia. }
  rewrite Hrun. split; [reflexivity|]. split; [discriminate | reflexivity].
Qed.

(** C8: when the input path names no file, or a file Pillow does not
    decode, the call raises [DecodeError] and leaves the world as it was:
    no file is created and the file at the output path, if any, is
    unchanged. *)
Theorem decode_failure_is_atomic a w :
  (files w !! img_path a = None \/
   exists content, files w !! img_path a = Some content /\ decode content = None) ->
  create_dicom_from_image a w = (Raise DecodeError, w) /\
  files (snd (create_dicom_from_image a w)) !! out_path a = files w !! out_path a.
Proof.
  intros Hbad.
  assert (Hrun : create_dicom_from_image a w = (Raise DecodeError, w)).
  { unfold create_dicom_from_image. rewrite bind_run, build_dataset_fails; [reflexivity|].
    intros img (content & Hfile & Hdecode & _).
    destruct Hbad as [Hnone|(content' & Hfile' & Hnone)]; congruence. }
  rewrite Hrun. split; reflexivity.
Qed.

(** C10: called with the two paths only, the function builds a dataset
    with PhotometricInterpretation = "MONOCHROME2" and Modality = "OT";
    [main] run with [-i] and [-o] only calls it with the command line's
    defaults and gets PhotometricInterpretation = "RGB" and
    Modality = "DX". *)
Theorem library_defaults_differ_from_cli_defaults w i o img :
  opens_as w i img ->
  let cli := {| argparse.opt_input := Some i;
                argparse.opt_output := Some o;
                argparse.opt_patient := None;
                argparse.opt_id := None;
                argparse.opt_modality := None;
                argparse.opt_monochrome := false |} in
  (exists ds w',
      build_dataset (call_with_defaults i o) w = (Ok ds, w') /\
      elements ds !! "PhotometricInterpretation" = Some (VStr "MONOCHROME2") /\
      elements ds !! "Modality" = Some (VStr "OT")) /\
  (exists ns ds w',
      argparse.parse_args cli = Some ns /\
      main cli = Some (_ ← create_dicom_from_image (main_call ns); mret tt) /\
      build_dataset (main_call ns) w = (Ok ds, w') /\
      elements ds !! "PhotometricInterpretation" = Some (VStr "RGB") /\
      elements ds !! "Modality" = Some (VStr "DX")).
Proof.
  intros Hopen cli. split.
  - eexists _, _. split; [apply build_dataset_run; exact Hopen|].
    split; reflexivity.
  - eexists _, _, _. split; [reflexivity|]. split; [reflexivity|].
    split; [apply build_dataset_run; exact Hopen|].
    split; reflexivity.
Qed.

End Properties.
(* ===================================================================== *)
(** ** The theorems at the concrete environment *)
(* ===================================================================== *)

Ltac sample_opens content :=
  exists content;
  split; [vm_compute; reflexivity|];
  split; [vm_compute; reflexivity|];
  split; cbn; lia.

(** The generator of the concrete environment never repeats a token. *)
Lemma Sample_uid_token_injective (i j : nat) :
  @uid_token Sample.env i = @uid_token Sample.env j -> i = j.
Proof.
  unfold uid_token. cbn [uid_number Sample.env]. intros H.
  apply decimal_facts.append_cancel in H.
  apply (f_equal strftime.parse_decimal) in H.
  rewrite !decimal_facts.parse_decimal_decimal in H. injection H as H. lia.
Qed.

Ltac sample_well_formed := split; [reflexivity | repeat constructor].

Lemma monochrome_dataset_witness :
  exists ds w' buf,
    @build_dataset Sample.env (call_with_defaults "xray.png" "out.dcm") Sample.world = (Ok ds, w') /\
    pydicom.elements ds !! "Rows" = Some (VInt 1) /\
    pydicom.elements ds !! "Columns" = Some (VInt 2) /\
    pydicom.elements ds !! "SamplesPerPixel" = Some (VInt 1) /\
    pydicom.elements ds !! "PhotometricInterpretation" = Some (VStr "MONOCHROME2") /\
    pydicom.elements ds !! "PlanarConfiguration" = None /\
    pydicom.elements ds !! "PixelData" = Some (VBytes buf) /\
    length buf = 1 * 2 /\
    forall i j row p,
      PIL.src_rows Sample.xray !! i = Some row -> row !! j = Some p ->
      buf !! (i * 2 + j) = Some (Sample.luma p).
Proof.
  apply (@monochrome_dataset Sample.env (call_with_defaults "xray.png" "out.dcm")
           Sample.world Sample.xray 1 2).
  - reflexivity.
  - sample_opens Sample.xray_png.
  - sample_well_formed.
  - reflexivity.
Defined.

Lemma rgb_dataset_witness :
  exists ds w' buf,
    @build_dataset Sample.env Sample.supplied_uids Sample.world = (Ok ds, w') /\
    pydicom.elements ds !! "Rows" = Some (VInt 1) /\
    pydicom.elements ds !! "Columns" = Some (VInt 2) /\
    pydicom.elements ds !! "SamplesPerPixel" = Some (VInt 3) /\
    pydicom.elements ds !! "PhotometricInterpretation" = Some (VStr "RGB") /\
    pydicom.elements ds !! "PlanarConfiguration" = Some (VInt 0) /\
    pydicom.elements ds !! "PixelData" = Some (VBytes buf) /\
    length buf = 1 * 2 * 3 /\
    forall i j row p r g b,
      PIL.src_rows Sample.xray !! i = Some row -> row !! j = Some p ->
      p = (r, g, b) ->
      buf !! (3 * (i * 2 + j)) = Some r /\
      buf !! (3 * (i * 2 + j) + 1) = Some g /\
      buf !! (3 * (i * 2 + j) + 2) = Some b.
Proof.
  apply (@rgb_dataset Sample.env Sample.supplied_uids Sample.world Sample.xray 1 2).
  - reflexivity.
  - sample_opens Sample.xray_png.
  - sample_well_formed.
  - reflexivity.
Defined.

Lemma encoding_flags_match_transfer_syntax_witness :
  exists ds w',
    @build_dataset Sample.env Sample.supplied_uids Sample.world = (Ok ds, w') /\
    pydicom.file_meta ds !! "TransferSyntaxUID" = Some (VStr pydicom.ExplicitVRLittleEndian) /\
    pydicom.is_little_endian ds = true /\
    pydicom.is_implicit_VR ds = false /\
    forall ts,
      pydicom.file_meta ds !! "TransferSyntaxUID" = Some (VStr ts) ->
      pydicom.uid_is_little_endian ts = Some (pydicom.is_little_endian ds) /\
      pydicom.uid_is_implicit_VR ts = Some (pydicom.is_implicit_VR ds).
Proof.
  apply (@encoding_flags_match_transfer_syntax Sample.env Sample.supplied_uids
           Sample.world Sample.xray).
  sample_opens Sample.xray_png.
Defined.

Lemma sample_format_is_fixed_witness :
  exists ds w',
    @build_dataset Sample.env Sample.supplied_uids Sample.world = (Ok ds, w') /\
    pydicom.elements ds !! "BitsAllocated" = Some (VInt 8) /\
    pydicom.elements ds !! "BitsStored" = Some (VInt 8) /\
    pydicom.elements ds !! "HighBit" = Some (VInt 7) /\
    pydicom.elements ds !! "PixelRepresentation" = Some (VInt 0).
Proof.
  apply (@sample_format_is_fixed Sample.env Sample.supplied_uids Sample.world Sample.xray).
  sample_opens Sample.xray_png.
Defined.

Lemma timestamps_from_one_instant_witness :
  exists ds w' date time,
    @build_dataset Sample.env Sample.supplied_uids Sample.world = (Ok ds, w') /\
    clock_reads w' = 1 /\
    clock_reads (snd (@create_dicom_from_image Sample.env Sample.supplied_uids Sample.world)) = 1 /\
    pydicom.elements ds !! "StudyDate" = Some (VStr date) /\
    pydicom.elements ds !! "InstanceCreationDate" = Some (VStr date) /\
    pydicom.elements ds !! "StudyTime" = Some (VStr time) /\
    pydicom.elements ds !! "InstanceCreationTime" = Some (VStr time) /\
    (exists y m d,
        date = y +:+ m +:+ d /\
        strftime.reads_as 4 2024 y /\ strftime.reads_as 2 3 m /\ strftime.reads_as 2 9 d) /\
    (exists h m s,
        time = h +:+ m +:+ s /\
        strftime.reads_as 2 7 h /\ strftime.reads_as 2 5 m /\ strftime.reads_as 2 2 s).
Proof.
  apply (@timestamps_from_one_instant Sample.env Sample.supplied_uids Sample.world Sample.xray).
  - sample_opens Sample.xray_png.
  - unfold valid_datetime. simpl. lia.
Defined.


Lemma degenerate_image_is_refused_witness :
  let a := call_with_defaults "empty.png" "out.dcm" in
  @create_dicom_from_image Sample.env a Sample.world = (Raise DecodeError, Sample.world) /\
  fst (@create_dicom_from_image Sample.env a Sample.world) <> Raise InvalidImageError /\
  files (snd (@create_dicom_from_image Sample.env a Sample.world)) !! out_path a
  = files Sample.world !! out_path a.
Proof.
  apply (@degenerate_image_is_refused Sample.env
           (call_with_defaults "empty.png" "out.dcm") Sample.world
           Sample.empty_png Sample.empty).
  - vm_compute. reflexivity.
  - vm_compute. reflexivity.
  - right. reflexivity.
Defined.

Lemma decode_failure_is_atomic_witness :
  @create_dicom_from_image Sample.env (call_with_defaults "missing.png" "old.dcm") Sample.world
  = (Raise DecodeError, Sample.world) /\
  files (snd (@create_dicom_from_image Sample.env
                (call_with_defaults "missing.png" "old.dcm") Sample.world)) !! "old.dcm"
  = files Sample.world !! "old.dcm".
Proof.
  apply (@decode_failure_is_atomic Sample.env
           (call_with_defaults "missing.png" "old.dcm") Sample.world).
  left. vm_compute. reflexivity.
Defined.

Lemma sop_uids_consistent_witness :
  exists ds w' class instance,
    @build_dataset Sample.env Sample.supplied_uids Sample.world = (Ok ds, w') /\
    pydicom.elements ds !! "SOPClassUID" = Some class /\
    pydicom.file_meta ds !! "MediaStorageSOPClassUID" = Some class /\
    pydicom.elements ds !! "SOPInstanceUID" = Some instance /\
    pydicom.file_meta ds !! "MediaStorageSOPInstanceUID" = Some instance.
Proof.
  apply (@sop_uids_consistent Sample.env Sample.supplied_uids Sample.world Sample.xray).
  sample_opens Sample.xray_png.
Defined.

Lemma library_defaults_differ_from_cli_defaults_witness :
  let cli := {| argparse.opt_input := Some "xray.png";
                argparse.opt_output := Some "out.dcm";
                argparse.opt_patient := None;
                argparse.opt_id := None;
                argparse.opt_modality := None;
                argparse.opt_monochrome := false |} in
  (exists ds w',
      @build_dataset Sample.env (call_with_defaults "xray.png" "out.dcm") Sample.world = (Ok ds, w') /\
      pydicom.elements ds !! "PhotometricInterpretation" = Some (VStr "MONOCHROME2") /\
      pydicom.elements ds !! "Modality" = Some (VStr "OT")) /\
  (exists ns ds w',
      argparse.parse_args cli = Some ns /\
      @main Sample.env cli = Some (_ ← @create_dicom_from_image Sample.env (main_call ns); mret tt) /\
      @build_dataset Sample.env (main_call ns) Sample.world = (Ok ds, w') /\
      pydicom.elements ds !! "PhotometricInterpretation" = Some (VStr "RGB") /\
      pydicom.elements ds !! "Modality" = Some (VStr "DX")).
Proof.
  apply (@library_defaults_differ_from_cli_defaults Sample.env Sample.world
           "xray.png" "out.dcm" Sample.xray).
  sample_opens Sample.xray_png.
Defined.


(** The claim C7 at a file whose header declares width 5 and height 0:
    the call fails, but with the [DecodeError] of [Image.open] and not
    with [InvalidImageError]; no file is written. *)
Lemma zero_height_image_raises_decode_error :
  @decode Sample.env Sample.empty_png = Some Sample.empty /\
  PIL.src_size Sample.empty = (5, 0) /\
  @create_dicom_from_image Sample.env
    (call_with_defaults "empty.png" "out.dcm") Sample.world
  = (Raise DecodeError, Sample.world) /\
  fst (@create_dicom_from_image Sample.env
         (call_with_defaults "empty.png" "out.dcm") Sample.world)
  <> Raise InvalidImageError.
Proof.
  split; [vm_compute; reflexivity|]. split; [reflexivity|].
  assert (H : @create_dicom_from_image Sample.env
                (call_with_defaults "empty.png" "out.dcm") Sample.world
              = (Raise DecodeError, Sample.world)).
  { vm_compute. reflexivity. }
  split; [exact H|]. rewrite H. discriminate.
Qed.
(* ===================================================================== *)
(** ** Further properties of the script *)
(* ===================================================================== *)

Section Coverage.

Context {env : Env}.

Import pydicom.

Local Ltac attr :=
  repeat (rewrite lookup_insert_ne by discriminate);
  first [apply lookup_insert_eq | apply lookup_empty].

(** X1: the dataset holds exactly the twenty attributes the script assigns
    (twenty-one with PlanarConfiguration when the image is RGB) and the
    file meta exactly four; the file name is the output path and the
    preamble is 128 zero bytes. *)
Theorem dataset_attribute_set a w img :
  opens_as w (img_path a) img ->
  exists ds w',
    build_dataset a w = (Ok ds, w') /\
    filename ds = out_path a /\
    preamble ds = repeat x00 128 /\
    dom (file_meta ds) =
      list_to_set ["MediaStorageSOPClassUID"; "MediaStorageSOPInstanceUID";
                   "TransferSyntaxUID"; "ImplementationClassUID"] /\
    dom (elements ds) =
      list_to_set
        (["PatientName"; "PatientID"; "Modality"; "StudyInstanceUID";
          "SeriesInstanceUID"; "SOPClassUID"; "SOPInstanceUID"; "StudyDate";
          "StudyTime"; "InstanceCreationDate"; "InstanceCreationTime";
          "SamplesPerPixel"; "PhotometricInterpretation"; "Rows"; "Columns";
          "BitsAllocated"; "BitsStored"; "HighBit"; "PixelRepresentation";
          "PixelData"]
         ++ (if make_monochrome a then [] else ["PlanarConfiguration"])).
Proof.
  intros Hopen.
  eexists _, _. split; [apply build_dataset_run; exact Hopen|].
  cbn [filename preamble file_meta elements dataset_of].
  split; [reflexivity|]. split; [reflexivity|]. split.
  - unfold meta_of. rewrite !dom_insert_L, dom_empty_L. cbn [list_to_set foldr].
    set_solver.
  - unfold elements_of, image_attrs_of, header_of.
    destruct (make_monochrome a); rewrite !dom_insert_L, dom_empty_L;
      cbn [list_to_set foldr app]; set_solver.
Qed.


(** X3: in either mode the length of PixelData is
    Rows * Columns * SamplesPerPixel * (BitsAllocated / 8), read from the
    attributes of the dataset itself. *)
Theorem pixel_data_matches_declared_shape a w img :
  opens_as w (img_path a) img ->
  PIL.well_formed img ->
  exists ds w' rows columns samples bits buf,
    build_dataset a w = (Ok ds, w') /\
    elements ds !! "Rows" = Some (VInt rows) /\
    elements ds !! "Columns" = Some (VInt columns) /\
    elements ds !! "SamplesPerPixel" = Some (VInt samples) /\
    elements ds !! "BitsAllocated" = Some (VInt bits) /\
    elements ds !! "PixelData" = Some (VBytes buf) /\
    Z.of_nat (length buf) = (rows * columns * samples * (bits / 8))%Z.
Proof.
  intros Hopen [Hrows Hcols].
  destruct (PIL.src_size img) as [C R] eqn:Hsize. simpl in Hrows, Hcols.
  exists (dataset_of a img (uids_drawn w) (clock (clock_reads w))), (world_after_build a w),
    (Z.of_nat R), (Z.of_nat C), (if make_monochrome a then 1%Z else 3%Z), 8%Z,
    (pixel_bytes a img).
  split; [apply build_dataset_run; exact Hopen|].
  cbn [elements dataset_of]. unfold elements_of, image_attrs_of. rewrite Hsize.
  cbn [fst snd].
  destruct (make_monochrome a) eqn:Hmono.
  - do 5 (split; [attr|]).
    rewrite (pixel_bytes_L _ _ Hmono).
    rewrite (length_flat (bands PIL.L) 1 length_bands_L _ R C) by assumption.
    change (8 / 8)%Z with 1%Z. lia.
  - do 5 (split; [attr|]).
    rewrite (pixel_bytes_RGB _ _ Hmono).
    rewrite (length_flat (bands PIL.RGB) 3 length_bands_RGB _ R C) by assumption.
    change (8 / 8)%Z with 1%Z. lia.
Qed.

(** X4: until the dataset is complete nothing is written, created or
    printed; the steps draw one token for ImplementationClassUID and one
    for each of the three identifiers that is missing or empty, so between
    one and four, and saving draws none. *)
Theorem nothing_written_before_the_dataset_is_built a w img :
  opens_as w (img_path a) img ->
  exists ds w1,
    build_dataset a w = (Ok ds, w1) /\
    files w1 = files w /\
    dirs w1 = dirs w /\
    stdout w1 = stdout w /\
    uids_drawn w1 =
      uids_drawn w + 1 + draws (sop_instance_uid a) + draws (study_uid a)
      + draws (series_uid a) /\
    uids_drawn w + 1 <= uids_drawn w1 <= uids_drawn w + 4 /\
    uids_drawn (snd (create_dicom_from_image a w)) = uids_drawn w1.
Proof.
  intros Hopen.
  eexists _, _. split; [apply build_dataset_run; exact Hopen|].
  unfold world_after_build. cbn [files dirs stdout uids_drawn].
  do 3 (split; [reflexivity|]).
  split; [lia|]. split.
  { unfold draws.
    destruct (truthy (sop_instance_uid a)), (truthy (study_uid a)),
      (truthy (series_uid a)); lia. }
  rewrite (create_dicom_from_image_run _ _ _ Hopen).
  destruct (save_steps (dataset_of a img (uids_drawn w) (clock (clock_reads w)))
              (out_path a) (world_after_build a w)) as (_ & -> & _).
  reflexivity.
Qed.

(** A call that returns has opened the input and the writer has written
    the whole file; the lemma names the world it leaves. *)
Lemma create_dicom_from_image_ok_inv a w p w' :
  create_dicom_from_image a w = (Ok p, w') ->
  p = out_path a /\
  exists img content,
    opens_as w (img_path a) img /\
    dcmwrite (dataset_of a img (uids_drawn w) (clock (clock_reads w))) = Written content /\
    files w' = <[out_path a := content]> (files w) /\
    dirs w' =
      list_to_set (parent_directory (out_path a) :: ancestors (parent_directory (out_path a)))
      ∪ dirs w /\
    stdout w' = (stdout w ++ ["Saved DICOM to " +:+ out_path a])%list.
Proof.
  intros Hrun.
  destruct (Image_open_cases w (img_path a)) as [(img & Hopen & _)|[Hno _]].
  2: { unfold create_dicom_from_image in Hrun.
       rewrite bind_run, (build_dataset_fails _ _ Hno) in Hrun. discriminate. }
  rewrite (create_dicom_from_image_run _ _ _ Hopen) in Hrun.
  rewrite bind_run in Hrun. unfold os_makedirs in Hrun.
  destruct (existsb _ _); [discriminate|].
  rewrite bind_run in Hrun. unfold save_as, write_file in Hrun.
  cbn [files dirs uids_drawn clock_reads stdout world_after_build] in Hrun.
  destruct (dcmwrite _) as [|written|content] eqn:Hwrite; [discriminate| |].
  { destruct (_ || _); discriminate. }
  destruct (_ || _); [discriminate|].
  cbn in Hrun. injection Hrun as <- <-.
  split; [reflexivity|]. exists img, content. cbn [files dirs stdout]. auto.
Qed.

(** X5: a call that returns, returns the output path; the dataset was
    built and the writer wrote the whole file; afterwards the output
    file holds what the writer made of the dataset, whatever was there
    before; the parent directory of the output and the directories above
    it exist, and no directory is gone; exactly one line,
    "Saved DICOM to <path>", was printed. *)
Theorem successful_conversion_effects a w p w' :
  create_dicom_from_image a w = (Ok p, w') ->
  p = out_path a /\
  exists ds w1 content,
    build_dataset a w = (Ok ds, w1) /\
    dcmwrite ds = Written content /\
    files w' !! out_path a = Some content /\
    parent_directory (out_path a) ∈ dirs w' /\
    (forall d, d ∈ ancestors (parent_directory (out_path a)) -> d ∈ dirs w') /\
    dirs w ⊆ dirs w' /\
    stdout w' = (stdout w ++ ["Saved DICOM to " +:+ out_path a])%list.
Proof.
  intros Hrun.
  destruct (create_dicom_from_image_ok_inv _ _ _ _ Hrun)
    as (Hp & img & content & Hopen & Hwrite & Hfiles & Hdirs & Hout).
  split; [exact Hp|].
  eexists _, _, content. split; [apply build_dataset_run; exact Hopen|].
  split; [exact Hwrite|]. split; [rewrite Hfiles; apply lookup_insert_eq|].
  rewrite Hdirs. split; [|split; [|split; [|exact Hout]]].
  - apply elem_of_union_l, elem_of_list_to_set, list_elem_of_here.
  - intros d Hd. apply elem_of_union_l, elem_of_list_to_set, list_elem_of_further, Hd.
  - apply union_subseteq_r.
Qed.

(** X7: an empty string for the study, series or instance identifier is
    the same as no identifier: the whole call, result and world, is the
    same as with [None] in its place. *)
Theorem empty_identifier_is_absent a w :
  (forall x, truthy x = false <-> x = None \/ x = Some "") /\
  create_dicom_from_image a w =
  create_dicom_from_image
    {| img_path := img_path a;
       out_path := out_path a;
       patient_name := patient_name a;
       patient_id := patient_id a;
       modality := modality a;
       study_uid := if truthy (study_uid a) then study_uid a else None;
       series_uid := if truthy (series_uid a) then series_uid a else None;
       sop_instance_uid :=
         if truthy (sop_instance_uid a) then sop_instance_uid a else None;
       sop_class_uid := sop_class_uid a;
       make_monochrome := make_monochrome a |} w.
Proof.
  split.
  { intros [s|]; simpl.
    - rewrite negb_false_iff, String.eqb_eq. split.
      + intros ->. auto.
      + intros [H|H]; congruence.
    - split; auto. }
  set (a' := {| img_path := img_path a |}).
  destruct (Image_open_cases w (img_path a)) as [(img & Hopen & _)|[Hno _]].
  - rewrite (create_dicom_from_image_run a w img Hopen).
    rewrite (create_dicom_from_image_run a' w img Hopen).
    assert (Hds : dataset_of a' img (uids_drawn w) (clock (clock_reads w)) =
                  dataset_of a img (uids_drawn w) (clock (clock_reads w)) /\
                  world_after_build a' w = world_after_build a w).
    { unfold dataset_of, world_after_build, elements_of, image_attrs_of, header_of,
        meta_of, pixel_bytes, draws, or_token, a'.
      cbn [img_path out_path patient_name patient_id modality study_uid series_uid
             sop_instance_uid sop_class_uid make_monochrome].
      destruct (sop_instance_uid a) as [s1|]; [destruct (truthy (Some s1)) eqn:E1|];
        (destruct (study_uid a) as [s2|]; [destruct (truthy (Some s2)) eqn:E2|]);
        (destruct (series_uid a) as [s3|]; [destruct (truthy (Some s3)) eqn:E3|]);
        rewrite ?E1, ?E2, ?E3; cbn [truthy]; split; reflexivity. }
    destruct Hds as [-> ->]. reflexivity.
  - unfold create_dicom_from_image.
    rewrite !bind_run, (build_dataset_fails a w Hno), (build_dataset_fails a' w Hno).
    reflexivity.
Qed.

(** X8: when the generator never repeats a token, two conversions one
    after the other, neither with an instance identifier supplied, get
    different SOPInstanceUIDs (each the same in dataset and file meta). *)
Theorem consecutive_conversions_get_distinct_instance_uids a1 a2 w img1 img2 :
  (forall i j, uid_token i = uid_token j -> i = j) ->
  truthy (sop_instance_uid a1) = false ->
  truthy (sop_instance_uid a2) = false ->
  opens_as w (img_path a1) img1 ->
  opens_as (snd (create_dicom_from_image a1 w)) (img_path a2) img2 ->
  exists ds1 w1 ds2 w2 u1 u2,
    build_dataset a1 w = (Ok ds1, w1) /\
    build_dataset a2 (snd (create_dicom_from_image a1 w)) = (Ok ds2, w2) /\
    elements ds1 !! "SOPInstanceUID" = Some (VStr u1) /\
    file_meta ds1 !! "MediaStorageSOPInstanceUID" = Some (VStr u1) /\
    elements ds2 !! "SOPInstanceUID" = Some (VStr u2) /\
    file_meta ds2 !! "MediaStorageSOPInstanceUID" = Some (VStr u2) /\
    u1 <> u2.
Proof.
  intros Hinj Hno1 Hno2 Hopen1 Hopen2.
  set (wa := snd (create_dicom_from_image a1 w)) in *.
  exists (dataset_of a1 img1 (uids_drawn w) (clock (clock_reads w))), (world_after_build a1 w),
    (dataset_of a2 img2 (uids_drawn wa) (clock (clock_reads wa))), (world_after_build a2 wa),
    (uid_token (uids_drawn w)), (uid_token (uids_drawn wa)).
  split; [apply build_dataset_run; exact Hopen1|].
  split; [apply build_dataset_run; exact Hopen2|].
  assert (Htok : forall x n, truthy x = false -> or_token x n = uid_token n).
  { intros x n Hx. unfold or_token. destruct x; [rewrite Hx|]; reflexivity. }
  cbn [elements file_meta dataset_of].
  unfold elements_of, image_attrs_of, header_of, meta_of.
  rewrite !(Htok _ _ Hno1), !(Htok _ _ Hno2), !backslash_facts.convert_value_idem,
    !convert_value_uid_token.
  split; [destruct (make_monochrome a1); attr|]. split; [attr|].
  split; [destruct (make_monochrome a2); attr|]. split; [attr|].
  intros Heq. apply Hinj in Heq.
  assert (Hlt : uids_drawn w < uids_drawn wa); [|lia].
  unfold wa. rewrite (create_dicom_from_image_run _ _ _ Hopen1).
  destruct (save_steps (dataset_of a1 img1 (uids_drawn w) (clock (clock_reads w)))
              (out_path a1) (world_after_build a1 w)) as (_ & -> & _).
  cbn. lia.
Qed.


(** X11: when the output path is the input path, a call that returns has
    replaced the input image by the DICOM file: the script does not guard
    against converting in place. *)
Theorem in_place_conversion_replaces_input a w p w' :
  img_path a = out_path a ->
  create_dicom_from_image a w = (Ok p, w') ->
  exists ds w1 image content,
    build_dataset a w = (Ok ds, w1) /\
    files w !! img_path a = Some image /\
    dcmwrite ds = Written content /\
    files w' !! img_path a = Some content.
Proof.
  intros Hsame Hrun.
  destruct (create_dicom_from_image_ok_inv _ _ _ _ Hrun)
    as (_ & img & content & Hopen & Hwrite & Hfiles & _).
  pose proof Hopen as (image & Hfile & _).
  eexists _, _, image, content. split; [apply build_dataset_run; exact Hopen|].
  split; [exact Hfile|]. split; [exact Hwrite|].
  rewrite Hfiles, Hsame. apply lookup_insert_eq.
Qed.

End Coverage.
(* ===================================================================== *)
(** ** The further properties at the concrete environment *)
(* ===================================================================== *)

Lemma dataset_attribute_set_witness :
  exists ds w',
    @build_dataset Sample.env Sample.supplied_uids Sample.world = (Ok ds, w') /\
    pydicom.filename ds = "out/xray.dcm" /\
    pydicom.preamble ds = repeat x00 128 /\
    dom (pydicom.file_meta ds) =
      list_to_set ["MediaStorageSOPClassUID"; "MediaStorageSOPInstanceUID";
                   "TransferSyntaxUID"; "ImplementationClassUID"] /\
    dom (pydicom.elements ds) =
      list_to_set
        (["PatientName"; "PatientID"; "Modality"; "StudyInstanceUID";
          "SeriesInstanceUID"; "SOPClassUID"; "SOPInstanceUID"; "StudyDate";
          "StudyTime"; "InstanceCreationDate"; "InstanceCreationTime";
          "SamplesPerPixel"; "PhotometricInterpretation"; "Rows"; "Columns";
          "BitsAllocated"; "BitsStored"; "HighBit"; "PixelRepresentation";
          "PixelData"]
         ++ ["PlanarConfiguration"]).
Proof.
  apply (@dataset_attribute_set Sample.env Sample.supplied_uids Sample.world Sample.xray).
  sample_opens Sample.xray_png.
Defined.


Lemma pixel_data_matches_declared_shape_witness :
  exists ds w' rows columns samples bits buf,
    @build_dataset Sample.env Sample.supplied_uids Sample.world = (Ok ds, w') /\
    pydicom.elements ds !! "Rows" = Some (VInt rows) /\
    pydicom.elements ds !! "Columns" = Some (VInt columns) /\
    pydicom.elements ds !! "SamplesPerPixel" = Some (VInt samples) /\
    pydicom.elements ds !! "BitsAllocated" = Some (VInt bits) /\
    pydicom.elements ds !! "PixelData" = Some (VBytes buf) /\
    Z.of_nat (length buf) = (rows * columns * samples * (bits / 8))%Z.
Proof.
  apply (@pixel_data_matches_declared_shape Sample.env Sample.supplied_uids
           Sample.world Sample.xray).
  - sample_opens Sample.xray_png.
  - sample_well_formed.
Defined.

Lemma nothing_written_before_the_dataset_is_built_witness :
  exists ds w1,
    @build_dataset Sample.env Sample.supplied_uids Sample.world = (Ok ds, w1) /\
    files w1 = files Sample.world /\
    dirs w1 = dirs Sample.world /\
    stdout w1 = stdout Sample.world /\
    uids_drawn w1 =
      uids_drawn Sample.world + 1
      + @draws (sop_instance_uid Sample.supplied_uids)
      + @draws (study_uid Sample.supplied_uids)
      + @draws (series_uid Sample.supplied_uids) /\
    uids_drawn Sample.world + 1 <= uids_drawn w1 <= uids_drawn Sample.world + 4 /\
    uids_drawn (snd (@create_dicom_from_image Sample.env Sample.supplied_uids Sample.world))
      = uids_drawn w1.
Proof.
  apply (@nothing_written_before_the_dataset_is_built Sample.env Sample.supplied_uids
           Sample.world Sample.xray).
  sample_opens Sample.xray_png.
Defined.

Lemma successful_conversion_effects_witness :
  let a := Sample.supplied_uids in
  let w' := snd (@create_dicom_from_image Sample.env a Sample.world) in
  "out/xray.dcm" = out_path a /\
  exists ds w1 content,
    @build_dataset Sample.env a Sample.world = (Ok ds, w1) /\
    Sample.write_raw ds = pydicom.Written content /\
    files w' !! out_path a = Some content /\
    @parent_directory Sample.env (out_path a) ∈ dirs w' /\
    (forall d, d ∈ Sample.posix_ancestors (@parent_directory Sample.env (out_path a)) ->
               d ∈ dirs w') /\
    dirs Sample.world ⊆ dirs w' /\
    stdout w' = (stdout Sample.world ++ ["Saved DICOM to " +:+ out_path a])%list.
Proof.
  apply (@successful_conversion_effects Sample.env Sample.supplied_uids Sample.world).
  vm_compute. reflexivity.
Defined.

Lemma consecutive_conversions_get_distinct_instance_uids_witness :
  let a := call_with_defaults "xray.png" "out.dcm" in
  exists ds1 w1 ds2 w2 u1 u2,
    @build_dataset Sample.env a Sample.world = (Ok ds1, w1) /\
    @build_dataset Sample.env a
      (snd (@create_dicom_from_image Sample.env a Sample.world)) = (Ok ds2, w2) /\
    pydicom.elements ds1 !! "SOPInstanceUID" = Some (VStr u1) /\
    pydicom.file_meta ds1 !! "MediaStorageSOPInstanceUID" = Some (VStr u1) /\
    pydicom.elements ds2 !! "SOPInstanceUID" = Some (VStr u2) /\
    pydicom.file_meta ds2 !! "MediaStorageSOPInstanceUID" = Some (VStr u2) /\
    u1 <> u2.
Proof.
  apply (@consecutive_conversions_get_distinct_instance_uids Sample.env
           (call_with_defaults "xray.png" "out.dcm") (call_with_defaults "xray.png" "out.dcm")
           Sample.world Sample.xray Sample.xray).
  - exact Sample_uid_token_injective.
  - reflexivity.
  - reflexivity.
  - sample_opens Sample.xray_png.
  - sample_opens Sample.xray_png.
Defined.


Lemma in_place_conversion_replaces_input_witness :
  let a := call_with_defaults "xray.png" "xray.png" in
  let w' := snd (@create_dicom_from_image Sample.env a Sample.world) in
  exists ds w1 image content,
    @build_dataset Sample.env a Sample.world = (Ok ds, w1) /\
    files Sample.world !! img_path a = Some image /\
    Sample.write_raw ds = pydicom.Written content /\
    files w' !! img_path a = Some content.
Proof.
  apply (@in_place_conversion_replaces_input Sample.env
           (call_with_defaults "xray.png" "xray.png") Sample.world "xray.png").
  - reflexivity.
  - vm_compute. reflexivity.
Defined.
